(** * A shallow embedding of [src/layers.rs] (rust-layers)

    The layer-tree node [Layer<T>], the content-age counter [ContentAge],
    [BufferRequest], [LayerBuffer] and [LayerBufferSet], with the
    operations of their [impl] blocks.

    Conventions of the embedding:
    - [usize] values are integers [Z] in [0, usize_max]; an arithmetic
      operator on [usize] is written out with Rust's overflow behaviour,
      which depends on the build profile: with overflow checks on
      (debug builds) an overflowing [+] or [*] panics, without them
      (release builds) it wraps modulo [2^usize_bits].  A panic is [None].
    - [f32] values are kept as their IEEE-754 binary32 bit patterns.  The
      layer code mostly stores them; [LayerBuffer::is_valid] computes on
      them, with the Standard Library's [SpecFloat] at binary32 precision,
      and the scaling of a rectangle by a [ScaleFactor] is a parameter
      ([f32_mul]) of the section below.
    - [RefCell] fields are plain record fields: a [borrow_mut] that writes a
      field yields the record with that field replaced.
    - An [Rc<Layer<T>>] is identified by the address of its shared
      allocation ([RcLayer]); the children of a layer are a list of them. *)

From Stdlib Require Import ZArith List Lia.
From Stdlib Require Import Floats.SpecFloat.
Import ListNotations.
Open Scope Z_scope.

(** ** Machine integers *)

Definition usize_bits : Z := 64.
Definition usize_modulus : Z := 2 ^ usize_bits.
Definition usize_max : Z := usize_modulus - 1.

(** [a + b] on [usize]: panics on overflow when [overflow_checks] is set,
    wraps otherwise. *)
Definition usize_add (overflow_checks : bool) (a b : Z) : option Z :=
  let s := a + b in
  if overflow_checks
  then if s <=? usize_max then Some s else None
  else Some (s mod usize_modulus).

(** [a * b] on [usize], with the same overflow behaviour. *)
Definition usize_mul (overflow_checks : bool) (a b : Z) : option Z :=
  let p := a * b in
  if overflow_checks
  then if p <=? usize_max then Some p else None
  else Some (p mod usize_modulus).

(** An [f32], as its binary32 bit pattern. *)
Definition f32 : Type := Z.
Definition f32_zero : f32 := 0.            (* 0.0f32 = 0x00000000 *)
Definition f32_one : f32 := 1065353216.    (* 1.0f32 = 0x3F800000 *)

(** ** Geometry and colour value types ([geom], [color]) *)

Record Point2D (A : Type) := { x : A; y : A }.
Record Size2D (A : Type) := { width : A; height : A }.
Record Rect (A : Type) := { origin : Point2D A; size : Size2D A }.

Arguments Build_Point2D {A}.
Arguments Build_Size2D {A}.
Arguments Build_Rect {A}.
Arguments x {A}.
Arguments y {A}.
Arguments width {A}.
Arguments height {A}.
Arguments origin {A}.
Arguments size {A}.

(** [Point2D::zero()] *)
Definition point2d_zero : Point2D f32 := {| x := f32_zero; y := f32_zero |}.

(** [Matrix4<f32>], row by row. *)
Record Matrix4 := {
  m11 : f32; m12 : f32; m13 : f32; m14 : f32;
  m21 : f32; m22 : f32; m23 : f32; m24 : f32;
  m31 : f32; m32 : f32; m33 : f32; m34 : f32;
  m41 : f32; m42 : f32; m43 : f32; m44 : f32 }.

(** [geom::matrix::identity()] *)
Definition identity : Matrix4 := {|
  m11 := f32_one;  m12 := f32_zero; m13 := f32_zero; m14 := f32_zero;
  m21 := f32_zero; m22 := f32_one;  m23 := f32_zero; m24 := f32_zero;
  m31 := f32_zero; m32 := f32_zero; m33 := f32_one;  m34 := f32_zero;
  m41 := f32_zero; m42 := f32_zero; m43 := f32_zero; m44 := f32_one |}.

(** [color::Color] *)
Record Color := { r : f32; g : f32; b : f32; a : f32 }.

(** ** [ContentAge] *)

Record ContentAge := { age : Z }.

(** [ContentAge::new] *)
Definition ContentAge_new : ContentAge := {| age := 0 |}.

(** [ContentAge::next]: [self.age += 1]. *)
Definition ContentAge_next (overflow_checks : bool) (c : ContentAge)
  : option ContentAge :=
  match usize_add overflow_checks (age c) 1 with
  | Some n => Some {| age := n |}
  | None => None
  end.

(** ** [BufferRequest] *)

Record BufferRequest := {
  screen_rect : Rect Z;
  page_rect : Rect f32;
  req_content_age : ContentAge }.

(** [BufferRequest::new] *)
Definition BufferRequest_new (screen_rect : Rect Z) (page_rect : Rect f32)
  (content_age : ContentAge) : BufferRequest :=
  {| screen_rect := screen_rect; page_rect := page_rect;
     req_content_age := content_age |}.

(** ** [Layer<T>] *)

(** An [Rc<Layer<T>>], by the address of its shared allocation. *)
Definition RcLayer : Type := positive.

(** The tile grid's type is a parameter: [TileGrid] lives in [tiling.rs]. *)
Record Layer (TileGrid T : Type) := {
  children : list RcLayer;
  transform : Matrix4;
  tile_size : Z;
  extra_data : T;
  tile_grid : TileGrid;
  bounds : Rect f32;
  content_age : ContentAge;
  content_offset : Point2D f32;
  masks_to_bounds : bool;
  background_color : Color;
  opacity : f32 }.

Arguments Build_Layer {TileGrid T}.
Arguments children {TileGrid T}.
Arguments transform {TileGrid T}.
Arguments tile_size {TileGrid T}.
Arguments extra_data {TileGrid T}.
Arguments tile_grid {TileGrid T}.
Arguments bounds {TileGrid T}.
Arguments content_age {TileGrid T}.
Arguments content_offset {TileGrid T}.
Arguments masks_to_bounds {TileGrid T}.
Arguments background_color {TileGrid T}.
Arguments opacity {TileGrid T}.

(** Writes through [borrow_mut] of a single [RefCell] field. *)
Section FieldWrites.
Context {TileGrid T : Type}.

Definition set_children (l : Layer TileGrid T) (v : list RcLayer) :=
  {| children := v; transform := transform l; tile_size := tile_size l;
     extra_data := extra_data l; tile_grid := tile_grid l; bounds := bounds l;
     content_age := content_age l; content_offset := content_offset l;
     masks_to_bounds := masks_to_bounds l;
     background_color := background_color l; opacity := opacity l |}.

Definition set_tile_grid (l : Layer TileGrid T) (tg : TileGrid) :=
  {| children := children l; transform := transform l; tile_size := tile_size l;
     extra_data := extra_data l; tile_grid := tg; bounds := bounds l;
     content_age := content_age l; content_offset := content_offset l;
     masks_to_bounds := masks_to_bounds l;
     background_color := background_color l; opacity := opacity l |}.

Definition set_bounds (l : Layer TileGrid T) (rc : Rect f32) :=
  {| children := children l; transform := transform l; tile_size := tile_size l;
     extra_data := extra_data l; tile_grid := tile_grid l; bounds := rc;
     content_age := content_age l; content_offset := content_offset l;
     masks_to_bounds := masks_to_bounds l;
     background_color := background_color l; opacity := opacity l |}.

Definition set_content_age (l : Layer TileGrid T) (c : ContentAge) :=
  {| children := children l; transform := transform l; tile_size := tile_size l;
     extra_data := extra_data l; tile_grid := tile_grid l; bounds := bounds l;
     content_age := c; content_offset := content_offset l;
     masks_to_bounds := masks_to_bounds l;
     background_color := background_color l; opacity := opacity l |}.

End FieldWrites.

(** [Vec::remove]: returns the element at [index] and shifts the rest down;
    panics when [index >= len]. *)
Fixpoint vec_remove {A : Type} (v : list A) (index : nat) : option (A * list A) :=
  match v, index with
  | [], _ => None
  | e :: v', O => Some (e, v')
  | e :: v', S i =>
      match vec_remove v' i with
      | Some (removed, rest) => Some (removed, e :: rest)
      | None => None
      end
  end.

Section LayerImpl.

(** The tile grid of [tiling.rs], the collaborator a layer delegates to. *)
Variable TileGrid : Type.
(** [TileGrid::new(tile_size)] *)
Variable TileGrid_new : Z -> TileGrid.
(** The geometric part of [TileGrid::get_buffer_requests_in_rect]: for a
    rectangle and a layer size in device pixels, the updated grid and the
    (screen rect, page rect) of every tile it requests. *)
Variable tile_partition :
  TileGrid -> Rect f32 -> Size2D f32 -> TileGrid * list (Rect Z * Rect f32).
(** Multiplication of two [f32] values. *)
Variable f32_mul : f32 -> f32 -> f32.

Variable T : Type.
Local Abbreviation Layer := (Layer TileGrid T).

(** Modelled from the spec: [TileGrid::get_buffer_requests_in_rect]
    ([tiling.rs], not in the sources).  The spec (sections 4.1 and 6) has it
    partition the device-pixel region into tile requests and tag every
    produced request with the content version passed in. *)
Definition get_buffer_requests_in_rect (tg : TileGrid) (rect : Rect f32)
  (layer_size : Size2D f32) (current_content_age : ContentAge)
  : TileGrid * list BufferRequest :=
  let '(tg', tiles) := tile_partition tg rect layer_size in
  (tg', map (fun '(sr, pr) => BufferRequest_new sr pr current_content_age) tiles).

(** [ScaleFactor] products: [TypedRect * ScaleFactor], [TypedSize2D * ScaleFactor]. *)
Definition size_scale (s : Size2D f32) (scale : f32) : Size2D f32 :=
  {| width := f32_mul (width s) scale; height := f32_mul (height s) scale |}.

Definition rect_scale (rc : Rect f32) (scale : f32) : Rect f32 :=
  {| origin := {| x := f32_mul (x (origin rc)) scale;
                  y := f32_mul (y (origin rc)) scale |};
     size := size_scale (size rc) scale |}.

(** [Layer::new] *)
Definition Layer_new (bounds : Rect f32) (tile_size : Z) (background_color : Color)
  (opacity : f32) (data : T) : Layer :=
  {| children := [];
     transform := identity;
     bounds := bounds;
     tile_size := tile_size;
     extra_data := data;
     tile_grid := TileGrid_new tile_size;
     content_age := ContentAge_new;
     masks_to_bounds := false;
     content_offset := point2d_zero;
     background_color := background_color;
     opacity := opacity |}.

(** [Layer::add_child]: [self.children().push(new_child)]. *)
Definition add_child (l : Layer) (new_child : RcLayer) : Layer :=
  set_children l (children l ++ [new_child]).

(** [Layer::remove_child_at_index]: [self.children().remove(index)];
    [None] is the panic of [Vec::remove]. *)
Definition remove_child_at_index (l : Layer) (index : nat) : option Layer :=
  match vec_remove (children l) index with
  | Some (_, rest) => Some (set_children l rest)
  | None => None
  end.

(** [Layer::get_buffer_requests]: the layer with its updated tile grid, and
    the returned vector. *)
Definition get_buffer_requests (l : Layer) (rect_in_layer : Rect f32) (scale : f32)
  : Layer * list BufferRequest :=
  let '(tg', reqs) :=
    get_buffer_requests_in_rect (tile_grid l) (rect_scale rect_in_layer scale)
      (size_scale (size (bounds l)) scale) (content_age l) in
  (set_tile_grid l tg', reqs).

(** [Layer::resize]: [self.bounds.borrow_mut().size = new_size]. *)
Definition resize (l : Layer) (new_size : Size2D f32) : Layer :=
  set_bounds l {| origin := origin (bounds l); size := new_size |}.

(** [Layer::contents_changed]: [self.content_age.borrow_mut().next()]. *)
Definition contents_changed (overflow_checks : bool) (l : Layer) : option Layer :=
  match ContentAge_next overflow_checks (content_age l) with
  | Some c => Some (set_content_age l c)
  | None => None
  end.

(** [n] successive calls of [contents_changed]. *)
Fixpoint contents_changed_n (overflow_checks : bool) (n : nat) (l : Layer)
  : option Layer :=
  match n with
  | O => Some l
  | S n' =>
      match contents_changed overflow_checks l with
      | Some l' => contents_changed_n overflow_checks n' l'
      | None => None
      end
  end.

End LayerImpl.

Arguments get_buffer_requests_in_rect {TileGrid}.
Arguments Layer_new {TileGrid} TileGrid_new {T}.
Arguments add_child {TileGrid T}.
Arguments remove_child_at_index {TileGrid T}.
Arguments get_buffer_requests {TileGrid} tile_partition f32_mul {T}.
Arguments resize {TileGrid T}.
Arguments contents_changed {TileGrid T}.
Arguments contents_changed_n {TileGrid T}.

(** ** [NativeSurface], [LayerBuffer] and [LayerBufferSet] *)

(** Modelled from the spec: the leak-tracking state of a [NativeSurface]
    ([platform/*/surface.rs], not in the sources).  Section 4.4 of the spec:
    [mark_will_leak] tells the local tracker not to flag the surface as
    leaked, [mark_wont_leak] re-asserts trackability. *)
Inductive LeakState := Tracked | WillLeak.

Record NativeSurface := { surface_handle : Z; leak_state : LeakState }.

(** Modelled from the spec: [NativeSurface::mark_will_leak]. *)
Definition NativeSurface_mark_will_leak (s : NativeSurface) : NativeSurface :=
  {| surface_handle := surface_handle s; leak_state := WillLeak |}.

(** Modelled from the spec: [NativeSurface::mark_wont_leak]. *)
Definition NativeSurface_mark_wont_leak (s : NativeSurface) : NativeSurface :=
  {| surface_handle := surface_handle s; leak_state := Tracked |}.

Record LayerBuffer := {
  native_surface : NativeSurface;
  rect : Rect f32;
  screen_pos : Rect Z;
  resolution : f32;
  stride : Z;
  painted_with_cpu : bool;
  buf_content_age : ContentAge }.

(** [LayerBuffer::get_mem]: [self.screen_pos.size.width * self.screen_pos.size.height]. *)
Definition get_mem (overflow_checks : bool) (buf : LayerBuffer) : option Z :=
  usize_mul overflow_checks (width (size (screen_pos buf))) (height (size (screen_pos buf))).

Definition set_native_surface (buf : LayerBuffer) (s : NativeSurface) : LayerBuffer :=
  {| native_surface := s; rect := rect buf; screen_pos := screen_pos buf;
     resolution := resolution buf; stride := stride buf;
     painted_with_cpu := painted_with_cpu buf; buf_content_age := buf_content_age buf |}.

(** [LayerBuffer::mark_wont_leak] *)
Definition LayerBuffer_mark_wont_leak (buf : LayerBuffer) : LayerBuffer :=
  set_native_surface buf (NativeSurface_mark_wont_leak (native_surface buf)).

Record LayerBufferSet := { buffers : list LayerBuffer }.

(** [LayerBufferSet::mark_will_leak]: the loop over [buffers.iter_mut()]. *)
Fixpoint mark_will_leak_each (bs : list LayerBuffer) : list LayerBuffer :=
  match bs with
  | [] => []
  | buffer :: rest =>
      set_native_surface buffer (NativeSurface_mark_will_leak (native_surface buffer))
      :: mark_will_leak_each rest
  end.

Definition LayerBufferSet_mark_will_leak (set : LayerBufferSet) : LayerBufferSet :=
  {| buffers := mark_will_leak_each (buffers set) |}.

(** ** [f32] arithmetic of [LayerBuffer::is_valid]

    An [f32] bit pattern read as an IEEE-754 binary32 number (24-bit
    precision, [emax = 128]) in the Standard Library's [SpecFloat], whose
    [SFsub], [SFabs] and [SFcompare] are IEEE-754 subtraction (rounding to
    nearest, ties to even), absolute value and comparison. *)
Definition f32_prec : Z := 24.
Definition f32_emax : Z := 128.

(** Sign bit 31, biased exponent in bits 23..30, fraction in bits 0..22. *)
Definition f32_value (bits : f32) : spec_float :=
  let sign := Z.testbit bits 31 in
  let biased := Z.land (Z.shiftr bits 23) 255 in
  let frac := Z.land bits (2 ^ 23 - 1) in
  if biased =? 0 then
    match frac with
    | Zpos m => S754_finite sign m (-149)      (* subnormal *)
    | _ => S754_zero sign
    end
  else if biased =? 255 then
    if frac =? 0 then S754_infinity sign else S754_nan
  else S754_finite sign (Z.to_pos (frac + 2 ^ 23)) (biased - 150).

(** The literal [1.0e-6] as an [f32] (0x358637BD). *)
Definition f32_1e_6 : f32 := 897988541.

(** [LayerBuffer::is_valid]: [(self.resolution - scale).abs() < 1.0e-6]. *)
Definition is_valid (buf : LayerBuffer) (scale : f32) : bool :=
  SFltb (SFabs (SFsub f32_prec f32_emax (f32_value (resolution buf)) (f32_value scale)))
        (f32_value f32_1e_6).

(** [#[derive(PartialEq, PartialOrd)]] on [ContentAge]: the single field
    [age] is compared as a [usize]. *)
Definition ContentAge_eq (c1 c2 : ContentAge) : bool := Z.eqb (age c1) (age c2).

Definition ContentAge_partial_cmp (c1 c2 : ContentAge) : option comparison :=
  Some (Z.compare (age c1) (age c2)).

(** [c1 < c2] through [PartialOrd::lt]. *)
Definition ContentAge_lt (c1 c2 : ContentAge) : bool :=
  match ContentAge_partial_cmp c1 c2 with
  | Some Lt => true
  | _ => false
  end.

(** ** The [Layer] methods that delegate to the tile grid *)

Section TileGridDelegation.

Context {T : Type}.
Variable TileGrid : Type.
Variable NativeCompositingGraphicsContext : Type.
(** [TileGrid::add_buffer], [TileGrid::take_unused_buffers],
    [TileGrid::collect_buffers] and [TileGrid::create_textures] of
    [tiling.rs], each with the tile grid it leaves behind. *)
Variable TileGrid_add_buffer : TileGrid -> LayerBuffer -> TileGrid.
Variable TileGrid_take_unused_buffers : TileGrid -> TileGrid * list LayerBuffer.
Variable TileGrid_collect_buffers : TileGrid -> TileGrid * list LayerBuffer.
Variable TileGrid_create_textures :
  TileGrid -> NativeCompositingGraphicsContext -> TileGrid.

(** [Layer::add_buffer]: [self.tile_grid.borrow_mut().add_buffer(tile)]. *)
Definition add_buffer (l : Layer TileGrid T) (tile : LayerBuffer) : Layer TileGrid T :=
  set_tile_grid l (TileGrid_add_buffer (tile_grid l) tile).

(** [Layer::collect_unused_buffers]:
    [self.tile_grid.borrow_mut().take_unused_buffers()]. *)
Definition collect_unused_buffers (l : Layer TileGrid T)
  : Layer TileGrid T * list LayerBuffer :=
  let '(tg', bufs) := TileGrid_take_unused_buffers (tile_grid l) in
  (set_tile_grid l tg', bufs).

(** [Layer::collect_buffers]: [self.tile_grid.borrow_mut().collect_buffers()]. *)
Definition collect_buffers (l : Layer TileGrid T)
  : Layer TileGrid T * list LayerBuffer :=
  let '(tg', bufs) := TileGrid_collect_buffers (tile_grid l) in
  (set_tile_grid l tg', bufs).

(** [Layer::create_textures]:
    [self.tile_grid.borrow_mut().create_textures(graphics_context)]. *)
Definition create_textures (l : Layer TileGrid T)
  (graphics_context : NativeCompositingGraphicsContext) : Layer TileGrid T :=
  set_tile_grid l (TileGrid_create_textures (tile_grid l) graphics_context).

End TileGridDelegation.

Arguments add_buffer {T TileGrid} TileGrid_add_buffer.
Arguments collect_unused_buffers {T TileGrid} TileGrid_take_unused_buffers.
Arguments collect_buffers {T TileGrid} TileGrid_collect_buffers.
Arguments create_textures {T TileGrid NativeCompositingGraphicsContext}
  TileGrid_create_textures.

(** Two layers that agree on every field but the tile grid. *)
Definition same_but_tile_grid {TileGrid T : Type} (l l' : Layer TileGrid T) : Prop :=
  children l' = children l /\ transform l' = transform l /\
  tile_size l' = tile_size l /\ extra_data l' = extra_data l /\
  bounds l' = bounds l /\ content_age l' = content_age l /\
  content_offset l' = content_offset l /\ masks_to_bounds l' = masks_to_bounds l /\
  background_color l' = background_color l /\ opacity l' = opacity l.

(** ** Concrete inputs *)

Module Sample.

Definition rect0 : Rect f32 :=
  {| origin := point2d_zero; size := {| width := f32_zero; height := f32_zero |} |}.

Definition white : Color := {| r := f32_one; g := f32_one; b := f32_one; a := f32_one |}.

(** A tile grid that keeps no state and requests one 256x256 tile per query. *)
Definition one_tile (tg : unit) (rc : Rect f32) (_ : Size2D f32)
  : unit * list (Rect Z * Rect f32) :=
  (tg, [({| origin := {| x := 0; y := 0 |}; size := {| width := 256; height := 256 |} |}, rc)]).

(** The product of two bit patterns is never inspected by the checks below. *)
Definition mul_first (p _ : f32) : f32 := p.

Definition layer0 : Layer unit unit :=
  Layer_new (fun _ => tt) rect0 256 white f32_one tt.

(** A layer whose content age has reached [usize::MAX]. *)
Definition layer_max : Layer unit unit :=
  set_content_age layer0 {| age := usize_max |}.

Definition surface (h : Z) : NativeSurface :=
  {| surface_handle := h; leak_state := Tracked |}.

Definition buffer (h w hh : Z) : LayerBuffer :=
  {| native_surface := surface h; rect := rect0;
     screen_pos := {| origin := {| x := 0; y := 0 |};
                      size := {| width := w; height := hh |} |};
     resolution := f32_one; stride := w; painted_with_cpu := true;
     buf_content_age := ContentAge_new |}.

(** A layer with the children [1], [2], [3], added in that order. *)
Definition layer3 : Layer unit unit :=
  add_child (add_child (add_child layer0 1%positive) 2%positive) 3%positive.

(** [layer0] moved to another origin, with one child. *)
Definition layer_moved : Layer unit unit :=
  add_child
    (set_bounds layer0 {| origin := {| x := 1084227584; y := 1088421888 |};
                          size := size (bounds layer0) |})
    9%positive.

(** A 256x256 buffer painted at resolution [res]. *)
Definition buffer_at (res : f32) : LayerBuffer :=
  {| native_surface := surface 0; rect := rect0;
     screen_pos := {| origin := {| x := 0; y := 0 |};
                      size := {| width := 256; height := 256 |} |};
     resolution := res; stride := 256; painted_with_cpu := false;
     buf_content_age := ContentAge_new |}.

Definition three_buffers : LayerBufferSet :=
  {| buffers := [buffer 1 256 256; buffer 2 256 256; buffer 3 256 256] |}.

End Sample.

(** ** Checks on concrete inputs *)

Example add_three_children :
  children (add_child (add_child (add_child Sample.layer0 1%positive) 2%positive) 3%positive)
  = [1; 2; 3]%positive.
Proof. reflexivity. Qed.

Example remove_middle_child :
  option_map children
    (remove_child_at_index
       (add_child (add_child (add_child Sample.layer0 1%positive) 2%positive) 3%positive) 1)
  = Some [1; 3]%positive.
Proof. reflexivity. Qed.

Example remove_out_of_range :
  remove_child_at_index (add_child Sample.layer0 1%positive) 1 = None.
Proof. reflexivity. Qed.

Example get_mem_10_20 : get_mem true (Sample.buffer 0 10 20) = Some 200.
Proof. reflexivity. Qed.

Example next_at_max :
  option_map (fun l => age (content_age l)) (contents_changed false Sample.layer_max) = Some 0
  /\ contents_changed true Sample.layer_max = None.
Proof. split; reflexivity. Qed.

(** ** The layer node *)

Section LayerProps.

Context {TileGrid T : Type}.
Variable TileGrid_new : Z -> TileGrid.
Variable tile_partition :
  TileGrid -> Rect f32 -> Size2D f32 -> TileGrid * list (Rect Z * Rect f32).
Variable f32_mul : f32 -> f32 -> f32.

(** C3: [Layer::new] gives content version 0, the identity transform, a zero
    content offset, no children and [masks_to_bounds = false]; bounds, tile
    size, background colour, opacity and payload are the arguments. *)
Theorem Layer_new_fields (bnds : Rect f32) (ts : Z) (bg : Color) (op : f32) (data : T) :
  let l := Layer_new TileGrid_new bnds ts bg op data in
  age (content_age l) = 0 /\ transform l = identity /\
  content_offset l = {| x := f32_zero; y := f32_zero |} /\
  children l = [] /\ masks_to_bounds l = false /\
  bounds l = bnds /\ tile_size l = ts /\ background_color l = bg /\
  opacity l = op /\ extra_data l = data.
Proof. repeat split. Qed.

(** C6: [resize] sets [bounds.size] to the new size and leaves every other
    field, the origin of the bounds included, as it was. *)
Theorem resize_frame (l : Layer TileGrid T) (new_size : Size2D f32) :
  let l' := resize l new_size in
  size (bounds l') = new_size /\ origin (bounds l') = origin (bounds l) /\
  transform l' = transform l /\ content_offset l' = content_offset l /\
  content_age l' = content_age l /\ children l' = children l /\
  masks_to_bounds l' = masks_to_bounds l /\
  background_color l' = background_color l /\ opacity l' = opacity l /\
  tile_size l' = tile_size l /\ extra_data l' = extra_data l /\
  tile_grid l' = tile_grid l.
Proof. repeat split. Qed.

(** Every request of [get_buffer_requests] carries the content age of the
    layer it was issued from. *)
Lemma get_buffer_requests_tagged (l : Layer TileGrid T) (rc : Rect f32) (scale : f32) :
  Forall (fun req => req_content_age req = content_age l)
    (snd (get_buffer_requests tile_partition f32_mul l rc scale)).
Proof.
  unfold get_buffer_requests, get_buffer_requests_in_rect.
  destruct (tile_partition _ _ _) as [tg' tiles]; simpl.
  apply Forall_forall. intros req Hin.
  apply in_map_iff in Hin as [[sr pr] [<- _]]. reflexivity.
Qed.

(** The layer after [get_buffer_requests] is the layer with its tile grid
    replaced. *)
Lemma get_buffer_requests_layer (l : Layer TileGrid T) (rc : Rect f32) (scale : f32) :
  let l' := fst (get_buffer_requests tile_partition f32_mul l rc scale) in
  l' = set_tile_grid l (tile_grid l').
Proof.
  unfold get_buffer_requests, get_buffer_requests_in_rect.
  destruct (tile_partition _ _ _) as [tg' tiles]; reflexivity.
Qed.

(** The successor of a content age is a different age. *)
Lemma ContentAge_next_differs (oc : bool) (c c' : ContentAge) :
  ContentAge_next oc c = Some c' -> c' <> c.
Proof.
  unfold ContentAge_next, usize_add.
  intros H E; subst c'. destruct c as [n]; simpl in H.
  assert (Hm : 1 < usize_modulus) by reflexivity.
  destruct oc.
  - destruct (n + 1 <=? usize_max); inversion H; lia.
  - inversion H as [E].
    assert (0 <= (n + 1) mod usize_modulus < usize_modulus)
      by (apply Z.mod_pos_bound; lia).
    rewrite E in *.
    destruct (Z.eq_dec (n + 1) usize_modulus) as [Hn | Hn].
    + rewrite Hn, Z_mod_same_full in E. lia.
    + rewrite Z.mod_small in E by lia. lia.
Qed.

(** C1: every request returned by [get_buffer_requests] carries the layer's
    content version at the time of the call; a [contents_changed] right
    afterwards leaves the returned requests as they are, with the old
    version, which then differs from the layer's new one. *)
Theorem get_buffer_requests_snapshot (oc : bool) (l : Layer TileGrid T)
  (rect_in_layer : Rect f32) (scale : f32) :
  let '(l1, reqs) := get_buffer_requests tile_partition f32_mul l rect_in_layer scale in
  Forall (fun req => req_content_age req = content_age l) reqs /\
  match contents_changed oc l1 with
  | Some l2 =>
      Forall (fun req => req_content_age req = content_age l /\
                         req_content_age req <> content_age l2) reqs
  | None => True
  end.
Proof.
  pose proof (get_buffer_requests_tagged l rect_in_layer scale) as Htag.
  pose proof (get_buffer_requests_layer l rect_in_layer scale) as Hl.
  destruct (get_buffer_requests tile_partition f32_mul l rect_in_layer scale)
    as [l1 reqs]; simpl in *.
  split; [exact Htag |].
  unfold contents_changed.
  destruct (ContentAge_next oc (content_age l1)) as [c |] eqn:E; [| exact I].
  rewrite Hl in E; simpl in E.
  apply ContentAge_next_differs in E.
  eapply Forall_impl; [| exact Htag].
  intros req Hreq; simpl. split; [exact Hreq |]. rewrite Hreq. auto.
Qed.

(** C10: [get_buffer_requests] writes only the layer's tile grid: content
    version, bounds, transform, content offset, children, [masks_to_bounds],
    background colour, opacity, tile size and payload are unchanged. *)
Theorem get_buffer_requests_read_only (l : Layer TileGrid T) (rect_in_layer : Rect f32)
  (scale : f32) :
  let l' := fst (get_buffer_requests tile_partition f32_mul l rect_in_layer scale) in
  content_age l' = content_age l /\ bounds l' = bounds l /\
  transform l' = transform l /\ content_offset l' = content_offset l /\
  children l' = children l /\ masks_to_bounds l' = masks_to_bounds l /\
  background_color l' = background_color l /\ opacity l' = opacity l /\
  tile_size l' = tile_size l /\ extra_data l' = extra_data l.
Proof.
  simpl. rewrite (get_buffer_requests_layer l rect_in_layer scale).
  repeat split.
Qed.

End LayerProps.

(** ** The child sequence *)

Lemma vec_remove_out_of_range {A : Type} (v : list A) (i : nat) :
  (length v <= i)%nat -> vec_remove v i = None.
Proof.
  revert i; induction v as [| e v IH]; intros [| i] Hi; simpl in *; try reflexivity.
  - lia.
  - rewrite IH by lia. reflexivity.
Qed.

Lemma vec_remove_in_range {A : Type} (v : list A) (i : nat) :
  (i < length v)%nat ->
  exists e, nth_error v i = Some e /\
            vec_remove v i = Some (e, firstn i v ++ skipn (S i) v).
Proof.
  revert i; induction v as [| e v IH]; intros [| i] Hi; simpl in *; try lia.
  - exists e. auto.
  - destruct (IH i) as [e' [Hn Hr]]; [lia |].
    exists e'. rewrite Hr. auto.
Qed.

Lemma nth_error_remove_at {A : Type} (v : list A) (i j : nat) :
  (i < length v)%nat ->
  nth_error (firstn i v ++ skipn (S i) v) j =
  if (j <? i)%nat then nth_error v j else nth_error v (S j).
Proof.
  intros Hi. destruct (Nat.ltb_spec j i) as [Hj | Hj].
  - rewrite nth_error_app1 by (rewrite length_firstn; lia).
    rewrite nth_error_firstn. apply Nat.ltb_lt in Hj. rewrite Hj. reflexivity.
  - rewrite nth_error_app2 by (rewrite length_firstn; lia).
    rewrite length_firstn, nth_error_skipn.
    f_equal. lia.
Qed.

Section ChildProps.

Context {TileGrid T : Type}.

(** C4: [remove_child_at_index i] panics when the layer has at most [i]
    children; for an index in range it removes exactly the [i]-th child,
    each later child moves down one position, and nothing else changes. *)
Theorem remove_child_at_index_spec (l : Layer TileGrid T) (i : nat) :
  ((length (children l) <= i)%nat -> remove_child_at_index l i = None) /\
  ((i < length (children l))%nat ->
   exists l',
     remove_child_at_index l i = Some l' /\
     l' = set_children l (children l') /\
     length (children l') = (length (children l) - 1)%nat /\
     forall j, nth_error (children l') j =
               if (j <? i)%nat then nth_error (children l) j
               else nth_error (children l) (S j)).
Proof.
  unfold remove_child_at_index. split; intros Hi.
  - rewrite vec_remove_out_of_range by exact Hi. reflexivity.
  - destruct (vec_remove_in_range (children l) i Hi) as [e [_ ->]].
    eexists; split; [reflexivity |]. cbn [set_children children].
    split; [reflexivity |]. split.
    + rewrite length_app, length_firstn, length_skipn. lia.
    + intros j. apply nth_error_remove_at. exact Hi.
Qed.

(** C5: [add_child] appends at the end of the child sequence; from a layer
    with no children, adding [A], [B], [C] gives [[A; B; C]], and removing
    index 1 then gives [[A; C]]. *)
Theorem add_child_insertion_order :
  (forall (l : Layer TileGrid T) c, children (add_child l c) = children l ++ [c]) /\
  (forall (l : Layer TileGrid T) ca cb cc,
     children l = [] ->
     let l3 := add_child (add_child (add_child l ca) cb) cc in
     children l3 = [ca; cb; cc] /\
     exists l', remove_child_at_index l3 1 = Some l' /\ children l' = [ca; cc]).
Proof.
  split; [reflexivity |].
  intros l ca cb cc Hl; simpl.
  unfold add_child; simpl. rewrite Hl; simpl.
  split; [reflexivity |].
  eexists; split; reflexivity.
Qed.

End ChildProps.

(** ** The content-age counter *)

Section AgeProps.

Context {TileGrid T : Type}.

Lemma contents_changed_step (oc : bool) (l : Layer TileGrid T) :
  0 <= age (content_age l) -> age (content_age l) + 1 <= usize_max ->
  contents_changed oc l = Some (set_content_age l {| age := age (content_age l) + 1 |}).
Proof.
  intros H0 H1. unfold contents_changed, ContentAge_next, usize_add.
  destruct oc.
  - destruct (Z.leb_spec (age (content_age l) + 1) usize_max); [reflexivity | lia].
  - rewrite Z.mod_small by (unfold usize_max in H1; lia). reflexivity.
Qed.

(** [n] calls from version [v] give version [v + n] while [v + n] fits in a
    [usize]; only the content age changes. *)
Lemma contents_changed_n_age (oc : bool) (n : nat) :
  forall (l : Layer TileGrid T),
    0 <= age (content_age l) -> age (content_age l) + Z.of_nat n <= usize_max ->
    exists l', contents_changed_n oc n l = Some l' /\
               age (content_age l') = age (content_age l) + Z.of_nat n /\
               l' = set_content_age l (content_age l').
Proof.
  induction n as [| n IH]; intros l H0 H1.
  - exists l. split; [reflexivity |]. split; [lia |].
    destruct l; reflexivity.
  - cbn [contents_changed_n].
    rewrite contents_changed_step by lia.
    destruct (IH (set_content_age l {| age := age (content_age l) + 1 |}))
      as [l' [Hr [Ha Hl]]]; simpl; try lia.
    exists l'. split; [exact Hr |]. split; [simpl in Ha; lia |].
    rewrite Hl at 1. reflexivity.
Qed.

Lemma contents_changed_at_max (l : Layer TileGrid T) :
  age (content_age l) = usize_max ->
  contents_changed true l = None /\
  contents_changed false l = Some (set_content_age l {| age := 0 |}).
Proof.
  intros H. unfold contents_changed, ContentAge_next, usize_add.
  rewrite H. split; reflexivity.
Qed.

(** C2 (amended): while [v + n] fits in a [usize], [n] calls of
    [contents_changed] from version [v] give version [v + n], each call
    adding exactly 1 and changing nothing else. *)
Theorem contents_changed_n_bounded (oc : bool) (l : Layer TileGrid T) (n : nat) :
  0 <= age (content_age l) -> age (content_age l) + Z.of_nat n <= usize_max ->
  exists l', contents_changed_n oc n l = Some l' /\
             age (content_age l') = age (content_age l) + Z.of_nat n /\
             l' = set_content_age l (content_age l').
Proof. apply contents_changed_n_age. Qed.

End AgeProps.

(** C2, counterexample: a fresh layer reaches version [usize::MAX] after
    [usize::MAX] calls of [contents_changed] (in either build profile); one
    more call does not give [usize::MAX + 1]: it panics with overflow
    checks and gives version 0 without them. *)
Lemma contents_changed_overflow_cex :
  contents_changed_n true (Z.to_nat usize_max) Sample.layer0 = Some Sample.layer_max /\
  contents_changed_n false (Z.to_nat usize_max) Sample.layer0 = Some Sample.layer_max /\
  contents_changed_n true 1 Sample.layer_max = None /\
  option_map (fun l => age (content_age l)) (contents_changed_n false 1 Sample.layer_max)
    = Some 0 /\
  age (content_age Sample.layer_max) + 1 <> 0.
Proof.
  assert (Hreach : forall oc,
    contents_changed_n oc (Z.to_nat usize_max) Sample.layer0 = Some Sample.layer_max).
  { intros oc.
    destruct (contents_changed_n_age oc (Z.to_nat usize_max) Sample.layer0)
      as [l' [Hr [Ha Hl]]].
    - vm_compute. discriminate.
    - rewrite Z2Nat.id by (vm_compute; discriminate).
      change (age (content_age Sample.layer0)) with 0. lia.
    - rewrite Hr, Hl. f_equal.
      change (age (content_age Sample.layer0)) with 0 in Ha.
      rewrite Z2Nat.id in Ha by (vm_compute; discriminate).
      destruct (content_age l') as [v]. simpl in Ha. subst v. reflexivity. }
  split; [apply Hreach |]. split; [apply Hreach |].
  split; [reflexivity |]. split; [reflexivity |].
  vm_compute. discriminate.
Qed.

(** ** Layer buffers *)

Lemma mark_will_leak_each_map (bs : list LayerBuffer) :
  mark_will_leak_each bs =
  map (fun buf => set_native_surface buf (NativeSurface_mark_will_leak (native_surface buf))) bs.
Proof. induction bs as [| buf bs IH]; simpl; [reflexivity | rewrite IH; reflexivity]. Qed.

(** C8: [LayerBufferSet::mark_will_leak] marks the native surface of every
    buffer of the set as will-leak, buffer by buffer, in place; no buffer
    stays in the tracked state. *)
Theorem LayerBufferSet_mark_will_leak_all (set : LayerBufferSet) :
  let set' := LayerBufferSet_mark_will_leak set in
  length (buffers set') = length (buffers set) /\
  Forall (fun buf => leak_state (native_surface buf) = WillLeak) (buffers set') /\
  forall i, nth_error (buffers set') i =
            option_map (fun buf => set_native_surface buf
                                     (NativeSurface_mark_will_leak (native_surface buf)))
                       (nth_error (buffers set) i).
Proof.
  simpl. rewrite mark_will_leak_each_map. split; [| split].
  - apply length_map.
  - apply Forall_forall. intros buf Hin.
    apply in_map_iff in Hin as [buf0 [<- _]]. reflexivity.
  - intros i. apply nth_error_map.
Qed.

Example three_buffers_will_leak :
  map (fun buf => leak_state (native_surface buf))
      (buffers (LayerBufferSet_mark_will_leak Sample.three_buffers))
  = [WillLeak; WillLeak; WillLeak].
Proof. reflexivity. Qed.

(** C9 (amended): [get_mem] is the product of the width and height of
    [screen_pos] whenever that product fits in a [usize]; beyond
    [usize::MAX] the multiplication overflows: it panics with overflow
    checks and wraps modulo [2^64] without them. *)
Theorem get_mem_bounded :
  (forall (oc : bool) (buf : LayerBuffer),
     let w := width (size (screen_pos buf)) in
     let h := height (size (screen_pos buf)) in
     0 <= w -> 0 <= h -> w * h <= usize_max -> get_mem oc buf = Some (w * h)) /\
  (forall buf : LayerBuffer,
     let w := width (size (screen_pos buf)) in
     let h := height (size (screen_pos buf)) in
     0 <= w -> 0 <= h -> usize_max < w * h ->
     get_mem true buf = None /\ get_mem false buf = Some ((w * h) mod usize_modulus)).
Proof.
  split.
  - intros oc buf w h Hw Hh Hle. subst w h. unfold get_mem, usize_mul. destruct oc.
    + destruct (Z.leb_spec (width (size (screen_pos buf)) * height (size (screen_pos buf)))
                  usize_max); [reflexivity | lia].
    + rewrite Z.mod_small by (unfold usize_max in Hle; nia). reflexivity.
  - intros buf w h Hw Hh Hgt. subst w h. unfold get_mem, usize_mul.
    split; [| reflexivity].
    destruct (Z.leb_spec (width (size (screen_pos buf)) * height (size (screen_pos buf)))
                usize_max); [lia | reflexivity].
Qed.

(** C9, counterexample: a [4294967296 x 4294967296] screen rectangle, whose
    area [2^64] does not fit in a [usize]. *)
Lemma get_mem_overflow_cex :
  get_mem true (Sample.buffer 0 4294967296 4294967296) = None /\
  get_mem false (Sample.buffer 0 4294967296 4294967296) = Some 0 /\
  4294967296 * 4294967296 <> 0.
Proof. split; [reflexivity |]. split; [reflexivity | lia]. Qed.

(** ** Witnesses: the theorems at concrete inputs *)

Lemma remove_child_at_index_spec_witness :
  (length (children Sample.layer3) <= 3)%nat /\
  remove_child_at_index Sample.layer3 3 = None /\
  (1 < length (children Sample.layer3))%nat /\
  exists l', remove_child_at_index Sample.layer3 1 = Some l' /\
             children l' = [1; 3]%positive.
Proof.
  assert (Hout : (length (children Sample.layer3) <= 3)%nat)
    by (apply Nat.leb_le; vm_compute; reflexivity).
  assert (Hin : (1 < length (children Sample.layer3))%nat)
    by (apply Nat.ltb_lt; vm_compute; reflexivity).
  split; [exact Hout |].
  split; [exact (proj1 (remove_child_at_index_spec Sample.layer3 3) Hout) |].
  split; [exact Hin |].
  destruct (proj2 (remove_child_at_index_spec Sample.layer3 1) Hin) as [l' [Hr _]].
  exists l'. split; [exact Hr |].
  vm_compute in Hr. injection Hr as <-. reflexivity.
Defined.

Lemma add_child_insertion_order_witness :
  children Sample.layer0 = [] /\
  children Sample.layer3 = [1; 2; 3]%positive /\
  exists l', remove_child_at_index Sample.layer3 1 = Some l' /\
             children l' = [1; 3]%positive.
Proof.
  assert (H0 : children Sample.layer0 = []) by reflexivity.
  split; [exact H0 |].
  exact (proj2 add_child_insertion_order Sample.layer0 1%positive 2%positive 3%positive H0).
Defined.

Lemma contents_changed_n_bounded_witness :
  0 <= age (content_age Sample.layer0) /\
  age (content_age Sample.layer0) + Z.of_nat 5%nat <= usize_max /\
  exists l', contents_changed_n true 5%nat Sample.layer0 = Some l' /\
             age (content_age l') = 5.
Proof.
  assert (H0 : 0 <= age (content_age Sample.layer0)) by (vm_compute; discriminate).
  assert (H1 : age (content_age Sample.layer0) + Z.of_nat 5%nat <= usize_max)
    by (vm_compute; discriminate).
  split; [exact H0 |]. split; [exact H1 |].
  destruct (contents_changed_n_bounded true Sample.layer0 5%nat H0 H1)
    as [l' [Hr [Ha _]]].
  exists l'. split; [exact Hr | exact Ha].
Defined.

Lemma get_mem_bounded_witness :
  get_mem true (Sample.buffer 0 10 20) = Some 200 /\
  get_mem false (Sample.buffer 0 4294967296 4294967296) = Some 0.
Proof.
  split.
  - apply (proj1 get_mem_bounded true (Sample.buffer 0 10 20));
      vm_compute; try discriminate.
  - assert (Hgt : usize_max < 4294967296 * 4294967296) by (vm_compute; reflexivity).
    apply (proj2 (proj2 get_mem_bounded (Sample.buffer 0 4294967296 4294967296)
                    ltac:(vm_compute; discriminate) ltac:(vm_compute; discriminate) Hgt)).
Defined.

(** ** Further properties of the layer operations *)

Lemma vec_remove_last {A : Type} (v : list A) (e : A) :
  vec_remove (v ++ [e]) (length v) = Some (e, v).
Proof. induction v as [| e' v IH]; simpl; [reflexivity | rewrite IH; reflexivity]. Qed.

Lemma set_children_same {TileGrid T : Type} (l : Layer TileGrid T) :
  set_children l (children l) = l.
Proof. destruct l; reflexivity. Qed.

Section MoreLayerProps.

Context {TileGrid T : Type}.
Variable tile_partition :
  TileGrid -> Rect f32 -> Size2D f32 -> TileGrid * list (Rect Z * Rect f32).
Variable f32_mul : f32 -> f32 -> f32.

(** Removing the child at the last index right after [add_child] gives back
    the layer as it was before the child was added. *)
Theorem remove_child_after_add_child (l : Layer TileGrid T) (c : RcLayer) :
  remove_child_at_index (add_child l c) (length (children l)) = Some l.
Proof.
  unfold remove_child_at_index, add_child. cbn [set_children children].
  rewrite vec_remove_last. f_equal. destruct l; reflexivity.
Qed.

(** A second [resize] overrides the first, and resizing to the current size
    leaves the layer unchanged. *)
Theorem resize_resize (l : Layer TileGrid T) (s1 s2 : Size2D f32) :
  resize (resize l s1) s2 = resize l s2 /\ resize l (size (bounds l)) = l.
Proof.
  split; [reflexivity |].
  destruct l as [? ? ? ? ? [o sz] ? ? ? ? ?]; reflexivity.
Qed.

(** [contents_changed] commutes with [add_child], [remove_child_at_index]
    and [resize]: invalidating the content and editing the tree or the
    size touch different fields. *)
Theorem contents_changed_commutes (oc : bool) (l : Layer TileGrid T) (c : RcLayer)
  (i : nat) (new_size : Size2D f32) :
  contents_changed oc (add_child l c) = option_map (fun l' => add_child l' c) (contents_changed oc l) /\
  contents_changed oc (resize l new_size) =
    option_map (fun l' => resize l' new_size) (contents_changed oc l) /\
  match remove_child_at_index l i with
  | Some l1 => option_map (fun l' => remove_child_at_index l' i) (contents_changed oc l)
               = option_map Some (contents_changed oc l1)
  | None => True
  end.
Proof.
  unfold contents_changed. cbn [add_child resize set_children set_bounds content_age].
  split; [| split].
  - destruct (ContentAge_next oc (content_age l)); reflexivity.
  - destruct (ContentAge_next oc (content_age l)); reflexivity.
  - unfold remove_child_at_index.
    destruct (vec_remove (children l) i) as [[e rest] |] eqn:E; [| exact I].
    cbn [set_children content_age].
    destruct (ContentAge_next oc (content_age l)); simpl; [rewrite E |]; reflexivity.
Qed.

(** The requests of [get_buffer_requests], and the tile grid it leaves
    behind, depend on the layer only through its tile grid, the size of its
    bounds and its content age: the origin of the bounds, the children, the
    transform and the other fields play no part. *)
Theorem get_buffer_requests_inputs (l1 l2 : Layer TileGrid T) (rc : Rect f32) (scale : f32) :
  tile_grid l1 = tile_grid l2 -> size (bounds l1) = size (bounds l2) ->
  content_age l1 = content_age l2 ->
  snd (get_buffer_requests tile_partition f32_mul l1 rc scale) =
    snd (get_buffer_requests tile_partition f32_mul l2 rc scale) /\
  tile_grid (fst (get_buffer_requests tile_partition f32_mul l1 rc scale)) =
    tile_grid (fst (get_buffer_requests tile_partition f32_mul l2 rc scale)).
Proof.
  intros Htg Hsz Hage. unfold get_buffer_requests.
  rewrite Htg, Hsz, Hage.
  destruct (get_buffer_requests_in_rect _ _ _ _ _); split; reflexivity.
Qed.

(** Requests issued at some version compare, through the derived
    [PartialOrd], strictly older than the layer's version after k >= 1
    further [contents_changed] calls, as long as the counter does not
    overflow: they are recognised as stale. *)
Theorem requests_older_after_changes (oc : bool) (l : Layer TileGrid T)
  (rc : Rect f32) (scale : f32) (k : nat) :
  0 <= age (content_age l) -> (1 <= k)%nat ->
  age (content_age l) + Z.of_nat k <= usize_max ->
  let '(l1, reqs) := get_buffer_requests tile_partition f32_mul l rc scale in
  exists l2, contents_changed_n oc k l1 = Some l2 /\
    Forall (fun req => ContentAge_lt (req_content_age req) (content_age l2) = true) reqs.
Proof.
  intros H0 Hk Hmax.
  pose proof (get_buffer_requests_tagged tile_partition f32_mul l rc scale) as Htag.
  pose proof (get_buffer_requests_layer tile_partition f32_mul l rc scale) as Hl.
  destruct (get_buffer_requests tile_partition f32_mul l rc scale) as [l1 reqs].
  simpl in Htag, Hl.
  assert (Hage : content_age l1 = content_age l) by (rewrite Hl; reflexivity).
  destruct (contents_changed_n_age oc k l1) as [l2 [Hr [Ha _]]];
    [rewrite Hage; exact H0 | rewrite Hage; exact Hmax |].
  exists l2. split; [exact Hr |].
  eapply Forall_impl; [| exact Htag].
  intros req Hreq. unfold ContentAge_lt, ContentAge_partial_cmp.
  rewrite Hreq, Ha, Hage.
  replace (Z.compare (age (content_age l)) (age (content_age l) + Z.of_nat k)) with Lt
    by (symmetry; apply Z.compare_lt_iff; lia).
  reflexivity.
Qed.

(** Without overflow checks, [contents_changed] at version [usize::MAX]
    wraps to a version that compares, through the derived [PartialOrd],
    strictly older than the one it replaces. *)
Theorem contents_changed_wrap_older (l : Layer TileGrid T) :
  age (content_age l) = usize_max ->
  option_map (fun l' => ContentAge_lt (content_age l') (content_age l))
    (contents_changed false l) = Some true.
Proof.
  intros H. destruct (contents_changed_at_max l H) as [_ ->].
  simpl. unfold ContentAge_lt, ContentAge_partial_cmp. simpl. rewrite H.
  reflexivity.
Qed.

(** A freshly constructed layer, after [k] calls of [contents_changed]
    (k <= usize::MAX), tags every request it issues with version [k]. *)
Theorem new_layer_requests_version (TileGrid_new : Z -> TileGrid) (oc : bool)
  (bnds : Rect f32) (ts : Z) (bg : Color) (op : f32) (data : T) (k : nat)
  (rc : Rect f32) (scale : f32) :
  Z.of_nat k <= usize_max ->
  exists l, contents_changed_n oc k (Layer_new TileGrid_new bnds ts bg op data) = Some l /\
    Forall (fun req => age (req_content_age req) = Z.of_nat k)
      (snd (get_buffer_requests tile_partition f32_mul l rc scale)).
Proof.
  intros Hk.
  destruct (contents_changed_n_age oc k (Layer_new TileGrid_new bnds ts bg op data))
    as [l [Hr [Ha _]]]; [simpl; lia | simpl; lia |].
  exists l. split; [exact Hr |].
  eapply Forall_impl; [| apply get_buffer_requests_tagged].
  intros req Hreq. simpl in Ha. rewrite Hreq, Ha. reflexivity.
Qed.

End MoreLayerProps.

Lemma same_but_tile_grid_set {TileGrid T : Type} (l : Layer TileGrid T) (tg : TileGrid) :
  same_but_tile_grid l (set_tile_grid l tg).
Proof. repeat split. Qed.

(** [add_buffer], [collect_unused_buffers], [collect_buffers] and
    [create_textures] change only the layer's tile grid: in particular
    none of them advances the content version or touches the children or
    the bounds. *)
Theorem tile_grid_methods_frame {TileGrid T Ctx : Type}
  (TileGrid_add_buffer : TileGrid -> LayerBuffer -> TileGrid)
  (TileGrid_take_unused_buffers TileGrid_collect_buffers :
     TileGrid -> TileGrid * list LayerBuffer)
  (TileGrid_create_textures : TileGrid -> Ctx -> TileGrid)
  (l : Layer TileGrid T) (tile : LayerBuffer) (ctx : Ctx) :
  same_but_tile_grid l (add_buffer TileGrid_add_buffer l tile) /\
  same_but_tile_grid l (fst (collect_unused_buffers TileGrid_take_unused_buffers l)) /\
  same_but_tile_grid l (fst (collect_buffers TileGrid_collect_buffers l)) /\
  same_but_tile_grid l (create_textures TileGrid_create_textures l ctx).
Proof.
  unfold add_buffer, collect_unused_buffers, collect_buffers, create_textures.
  split; [apply same_but_tile_grid_set |].
  split; [destruct (TileGrid_take_unused_buffers _); apply same_but_tile_grid_set |].
  split; [destruct (TileGrid_collect_buffers _); apply same_but_tile_grid_set |].
  apply same_but_tile_grid_set.
Qed.

(** Marking a buffer set as will-leak a second time changes nothing. *)
Theorem mark_will_leak_idempotent (set : LayerBufferSet) :
  LayerBufferSet_mark_will_leak (LayerBufferSet_mark_will_leak set) =
  LayerBufferSet_mark_will_leak set.
Proof.
  destruct set as [bs]. unfold LayerBufferSet_mark_will_leak. cbn [buffers].
  f_equal. induction bs as [| buf bs IH]; simpl; [reflexivity | rewrite IH; reflexivity].
Qed.

(** The handoff of a set whose surfaces are all tracked: the sender marks
    the set as will-leak, the receiver calls [mark_wont_leak] on each
    buffer, and the buffers come out exactly as they went in. *)
Theorem mark_will_leak_wont_leak_roundtrip (set : LayerBufferSet) :
  Forall (fun buf => leak_state (native_surface buf) = Tracked) (buffers set) ->
  map LayerBuffer_mark_wont_leak (buffers (LayerBufferSet_mark_will_leak set)) =
  buffers set.
Proof.
  destruct set as [bs]. unfold LayerBufferSet_mark_will_leak. cbn [buffers].
  induction 1 as [| buf bs Hbuf _ IH]; [reflexivity |].
  simpl. rewrite IH. f_equal.
  destruct buf as [[h st] ? ? ? ? ? ?]. simpl in Hbuf. subst st. reflexivity.
Qed.

(** A buffer with a zero width or a zero height has a memory cost of 0,
    and [get_mem] cannot overflow on it. *)
Theorem get_mem_empty (oc : bool) (buf : LayerBuffer) :
  width (size (screen_pos buf)) = 0 \/ height (size (screen_pos buf)) = 0 ->
  get_mem oc buf = Some 0.
Proof.
  intros H. unfold get_mem, usize_mul.
  assert (Hp : width (size (screen_pos buf)) * height (size (screen_pos buf)) = 0)
    by (destruct H as [-> | ->]; lia).
  rewrite Hp. destruct oc; reflexivity.
Qed.

(** ** Witnesses of the further properties *)

Lemma get_buffer_requests_inputs_witness :
  snd (get_buffer_requests Sample.one_tile Sample.mul_first Sample.layer0 Sample.rect0 f32_one) =
    snd (get_buffer_requests Sample.one_tile Sample.mul_first Sample.layer_moved Sample.rect0 f32_one) /\
  tile_grid (fst (get_buffer_requests Sample.one_tile Sample.mul_first Sample.layer0 Sample.rect0 f32_one)) =
    tile_grid (fst (get_buffer_requests Sample.one_tile Sample.mul_first Sample.layer_moved Sample.rect0 f32_one)).
Proof.
  apply (get_buffer_requests_inputs Sample.one_tile Sample.mul_first
           Sample.layer0 Sample.layer_moved Sample.rect0 f32_one);
    reflexivity.
Defined.

Lemma requests_older_after_changes_witness :
  exists l2, contents_changed_n true 2%nat
               (fst (get_buffer_requests Sample.one_tile Sample.mul_first Sample.layer0 Sample.rect0 f32_one))
             = Some l2 /\
    Forall (fun req => ContentAge_lt (req_content_age req) (content_age l2) = true)
      (snd (get_buffer_requests Sample.one_tile Sample.mul_first Sample.layer0 Sample.rect0 f32_one)).
Proof.
  exact (requests_older_after_changes Sample.one_tile Sample.mul_first true Sample.layer0
           Sample.rect0 f32_one 2%nat
           ltac:(vm_compute; discriminate) ltac:(apply Nat.leb_le; reflexivity)
           ltac:(vm_compute; discriminate)).
Defined.

Lemma contents_changed_wrap_older_witness :
  option_map (fun l' => ContentAge_lt (content_age l') (content_age Sample.layer_max))
    (contents_changed false Sample.layer_max) = Some true.
Proof. exact (contents_changed_wrap_older Sample.layer_max eq_refl). Defined.

Lemma new_layer_requests_version_witness :
  exists l, contents_changed_n false 3%nat
              (Layer_new (fun _ => tt) Sample.rect0 256 Sample.white f32_one tt) = Some l /\
    Forall (fun req => age (req_content_age req) = 3)
      (snd (get_buffer_requests Sample.one_tile Sample.mul_first l Sample.rect0 f32_one)).
Proof.
  exact (new_layer_requests_version Sample.one_tile Sample.mul_first (fun _ => tt) false
           Sample.rect0 256 Sample.white f32_one tt 3%nat Sample.rect0 f32_one
           ltac:(vm_compute; discriminate)).
Defined.

Lemma mark_will_leak_wont_leak_roundtrip_witness :
  map LayerBuffer_mark_wont_leak
    (buffers (LayerBufferSet_mark_will_leak Sample.three_buffers)) =
  buffers Sample.three_buffers.
Proof.
  apply mark_will_leak_wont_leak_roundtrip.
  repeat constructor.
Defined.

Lemma get_mem_empty_witness : get_mem false (Sample.buffer 0 0 4294967296) = Some 0.
Proof. apply get_mem_empty. left. reflexivity. Defined.

(** ** Scale validity of a buffer *)

(** C7: [is_valid buf scale] is true exactly when the absolute value of the
    [f32] difference [resolution - scale] is strictly less than the [f32]
    literal [1.0e-6], which is [10^-6] correctly rounded to binary32
    ([1 / 1000000] in binary32 division); when that absolute difference
    equals the literal, [is_valid] is false. *)
Theorem is_valid_threshold (buf : LayerBuffer) (scale : f32) :
  let d := SFabs (SFsub f32_prec f32_emax (f32_value (resolution buf)) (f32_value scale)) in
  (is_valid buf scale = true <-> SFcompare d (f32_value f32_1e_6) = Some Lt) /\
  (d = f32_value f32_1e_6 -> is_valid buf scale = false) /\
  f32_value f32_1e_6 =
    SFdiv f32_prec f32_emax (f32_value f32_one) (f32_value 1232348160 (* 1000000.0f32 *)).
Proof.
  intros d. split; [| split].
  - unfold is_valid, SFltb. fold d.
    destruct (SFcompare d (f32_value f32_1e_6)) as [[] |];
      split; congruence.
  - intros Hd. unfold is_valid. fold d. rewrite Hd. vm_compute. reflexivity.
  - vm_compute. reflexivity.
Qed.

(** The boundary and the values next to it, for a scale of [0.0]: the
    literal itself and the [f32] just above are invalid, the [f32] just
    below is valid. *)
(** The decoding of two bit patterns: [1.0f32] is [2^23 * 2^-23], and the
    literal [1.0e-6] is [8796093 * 2^-43]. *)
Example f32_value_samples :
  f32_value f32_one = S754_finite false 8388608 (-23) /\
  f32_value f32_1e_6 = S754_finite false 8796093 (-43).
Proof. split; reflexivity. Qed.

Example is_valid_boundary :
  is_valid (Sample.buffer_at 897988541) f32_zero = false /\
  is_valid (Sample.buffer_at 897988540) f32_zero = true /\
  is_valid (Sample.buffer_at 897988542) f32_zero = false.
Proof. vm_compute. repeat split. Qed.

(** At scale [1.0]: [1.000001f32] is valid, [1.000002f32] is not, and
    [1.0] itself is. *)
Example is_valid_near_one :
  is_valid (Sample.buffer_at 1065353224) f32_one = true /\
  is_valid (Sample.buffer_at 1065353233) f32_one = false /\
  is_valid (Sample.buffer_at f32_one) f32_one = true.
Proof. vm_compute. repeat split. Qed.

Lemma is_valid_threshold_witness :
  SFabs (SFsub f32_prec f32_emax (f32_value (resolution (Sample.buffer_at f32_1e_6)))
                                 (f32_value f32_zero)) = f32_value f32_1e_6 /\
  is_valid (Sample.buffer_at f32_1e_6) f32_zero = false.
Proof.
  assert (Hd : SFabs (SFsub f32_prec f32_emax (f32_value (resolution (Sample.buffer_at f32_1e_6)))
                                 (f32_value f32_zero)) = f32_value f32_1e_6)
    by (vm_compute; reflexivity).
  split; [exact Hd |].
  exact (proj1 (proj2 (is_valid_threshold (Sample.buffer_at f32_1e_6) f32_zero)) Hd).
Defined.
